(** * configure.py: capability probing and configuration derivation

    A shallow embedding of [src/configure.py], the configuration script of
    the VirtualBox tree: the probe classes [LibraryCheck] and [ToolCheck],
    the helper [checkWhich], the environment store [EnvManager], and the
    part of [main] that drives them.

    The script talks to its host through the Python standard library
    ([os.path], [shutil], [glob], [subprocess], [platform], [tempfile]).
    Those calls are read from a record of oracles, [Host]; every call is
    also appended to a log kept in the run state, so that "this code path
    never touches the file system" is a statement about that log.  Python
    exceptions are results of the monad [M]; mutable object attributes are
    fields of the object held in the run state. *)

From Stdlib Require Import ZArith Ascii String List Bool Lia DecimalString.
From stdpp Require Import base option list strings gmap fin_maps.

Open Scope string_scope.
Open Scope list_scope.

(** ** Python strings *)

Module PyStr.

(** [s.startswith(p)] *)
Definition startswith (s p : string) : bool := String.prefix p s.

(** [s[n:]] for [0 <= n] *)
Fixpoint drop (n : nat) (s : string) : string :=
  match n, s with
  | O, _ => s
  | S _, EmptyString => EmptyString
  | S n', String _ s' => drop n' s'
  end.

(** [c in h] for strings: [c] occurs in [h] as a contiguous run. *)
Fixpoint contains (c h : string) : bool :=
  String.prefix c h ||
  match h with
  | EmptyString => false
  | String _ h' => contains c h'
  end.

(** [s.replace(a, b)] for one-character [a] and [b]. *)
Fixpoint replace_char (a b : ascii) (s : string) : string :=
  match s with
  | EmptyString => EmptyString
  | String c s' => String (if Ascii.eqb c a then b else c) (replace_char a b s')
  end.

(** [s.lower()] on ASCII letters. *)
Definition lower_ascii (c : ascii) : ascii :=
  let n := nat_of_ascii c in
  if (65 <=? n)%nat && (n <=? 90)%nat then ascii_of_nat (n + 32) else c.

Fixpoint lower (s : string) : string :=
  match s with
  | EmptyString => EmptyString
  | String c s' => String (lower_ascii c) (lower s')
  end.

(** [str(n)] for an integer. *)
Definition of_Z (z : Z) : string := NilZero.string_of_int (Z.to_int z).

(** Truth value of a string: non-empty. *)
Definition truthy (s : string) : bool :=
  match s with EmptyString => false | _ => true end.

(** Truth value of an attribute that holds [None] or a string. *)
Definition truthy_opt (o : option string) : bool :=
  match o with Some s => truthy s | None => false end.

(** An attribute that holds [None] or a string, inside an f-string. *)
Definition fmt_opt (o : option string) : string :=
  match o with Some s => s | None => "None" end.

(** Decoded text is held as its UTF-8 encoding, one [ascii] per byte.

    White space as [str.strip()] sees it ([str.isspace]): U+0009 to U+000D,
    U+001C to U+001F, U+0020, then U+0085 and U+00A0 (two bytes), and
    U+1680, U+2000 to U+200A, U+2028, U+2029, U+202F, U+205F and U+3000
    (three bytes). *)
Definition is_space (c : ascii) : bool :=
  let n := nat_of_ascii c in
  (n =? 32)%nat || ((9 <=? n)%nat && (n <=? 13)%nat) || ((28 <=? n)%nat && (n <=? 31)%nat).

Definition is_space2 (c1 c2 : ascii) : bool :=
  let n1 := nat_of_ascii c1 in
  let n2 := nat_of_ascii c2 in
  (n1 =? 194)%nat && ((n2 =? 133)%nat || (n2 =? 160)%nat).

Definition is_space3 (c1 c2 c3 : ascii) : bool :=
  let n1 := nat_of_ascii c1 in
  let n2 := nat_of_ascii c2 in
  let n3 := nat_of_ascii c3 in
  ((n1 =? 225)%nat && (n2 =? 154)%nat && (n3 =? 128)%nat)
  || ((n1 =? 226)%nat && (n2 =? 128)%nat
      && (((128 <=? n3)%nat && (n3 <=? 138)%nat)
          || (n3 =? 168)%nat || (n3 =? 169)%nat || (n3 =? 175)%nat))
  || ((n1 =? 226)%nat && (n2 =? 129)%nat && (n3 =? 159)%nat)
  || ((n1 =? 227)%nat && (n2 =? 128)%nat && (n3 =? 128)%nat).

(** Line boundaries as [str.splitlines()] sees them: U+000A to U+000D,
    U+001C to U+001E, then U+0085 (two bytes), U+2028 and U+2029 (three
    bytes). *)
Definition is_linebreak (c : ascii) : bool :=
  let n := nat_of_ascii c in
  ((10 <=? n)%nat && (n <=? 13)%nat) || ((28 <=? n)%nat && (n <=? 30)%nat).

Definition is_linebreak2 (c1 c2 : ascii) : bool :=
  (nat_of_ascii c1 =? 194)%nat && (nat_of_ascii c2 =? 133)%nat.

Definition is_linebreak3 (c1 c2 c3 : ascii) : bool :=
  let n3 := nat_of_ascii c3 in
  (nat_of_ascii c1 =? 226)%nat && (nat_of_ascii c2 =? 128)%nat
  && ((n3 =? 168)%nat || (n3 =? 169)%nat).

Fixpoint lstrip (s : string) : string :=
  match s with
  | EmptyString => EmptyString
  | String c1 s1 =>
      if is_space c1 then lstrip s1
      else
        match s1 with
        | EmptyString => s
        | String c2 s2 =>
            if is_space2 c1 c2 then lstrip s2
            else
              match s2 with
              | EmptyString => s
              | String c3 s3 => if is_space3 c1 c2 c3 then lstrip s3 else s
              end
        end
  end.

(** Nothing but white space. *)
Definition blank (s : string) : bool :=
  match lstrip s with EmptyString => true | _ => false end.

(** The text without its longest blank end. *)
Fixpoint rstrip (s : string) : string :=
  match s with
  | EmptyString => EmptyString
  | String c s' => if blank s then EmptyString else String c (rstrip s')
  end.

Definition strip (s : string) : string := rstrip (lstrip s).

(** The text up to the first line boundary. *)
Fixpoint until_linebreak (s : string) : string :=
  match s with
  | EmptyString => EmptyString
  | String c1 s1 =>
      if is_linebreak c1 then EmptyString
      else
        match s1 with
        | EmptyString => String c1 EmptyString
        | String c2 s2 =>
            if is_linebreak2 c1 c2 then EmptyString
            else
              match s2 with
              | EmptyString => String c1 (until_linebreak s1)
              | String c3 _ =>
                  if is_linebreak3 c1 c2 c3 then EmptyString
                  else String c1 (until_linebreak s1)
              end
        end
  end.

(** [s.splitlines()[0]]; [None] stands for the [IndexError] on an empty
    list of lines, which is what the empty string splits into. *)
Definition first_line (s : string) : option string :=
  match s with
  | EmptyString => None
  | _ => Some (until_linebreak s)
  end.

Definition backslash : ascii := ascii_of_nat 92.
Definition dquote : ascii := ascii_of_nat 34.
Definition squote : ascii := ascii_of_nat 39.

Definition of_char (c : ascii) : string := String c EmptyString.

(** [repr(s)]: single quotes unless the text holds a single quote and no
    double quote; backslash, the quote, and control characters escaped. *)
Definition has_char (a : ascii) (s : string) : bool :=
  existsb (Ascii.eqb a) (list_ascii_of_string s).

Definition hex_digit (n : nat) : ascii :=
  if (n <? 10)%nat then ascii_of_nat (48 + n) else ascii_of_nat (87 + n).

Definition repr_char (q c : ascii) : string :=
  let n := nat_of_ascii c in
  if Ascii.eqb c backslash then String backslash (of_char backslash)
  else if Ascii.eqb c q then String backslash (of_char q)
  else if (n =? 10)%nat then String backslash "n"
  else if (n =? 13)%nat then String backslash "r"
  else if (n =? 9)%nat then String backslash "t"
  else if (n <? 32)%nat || (n =? 127)%nat
       then String backslash "x" +:+ String (hex_digit (n / 16)) (of_char (hex_digit (n mod 16)))
  else of_char c.

Fixpoint repr_body (q : ascii) (s : string) : string :=
  match s with
  | EmptyString => EmptyString
  | String c s' => repr_char q c +:+ repr_body q s'
  end.

Definition repr (s : string) : string :=
  let q := if has_char squote s && negb (has_char dquote s) then dquote else squote in
  String q (repr_body q s) +:+ of_char q.

(** [", ".join(l)] *)
Fixpoint join_comma (l : list string) : string :=
  match l with
  | [] => EmptyString
  | [x] => x
  | x :: l' => x +:+ ", " +:+ join_comma l'
  end.

(** A list of strings inside an f-string: [str(l)], which is [repr(l)]. *)
Definition repr_list (l : list string) : string :=
  "[" +:+ join_comma (map repr l) +:+ "]".

End PyStr.

(** ** Build architectures and targets *)

Module BuildArch.

Inductive t := UNKNOWN | X86 | AMD64 | ARM64.

Global Instance eq_dec : EqDecision t.
Proof. solve_decision. Defined.

Definition value (a : t) : string :=
  match a with
  | UNKNOWN => "unknown" | X86 => "x86" | AMD64 => "amd64" | ARM64 => "arm64"
  end.

End BuildArch.

Module BuildTargets.

Inductive t := ANY | LINUX | WINDOWS | DARWIN | SOLARIS | BSD | HAIKU | UNKNOWN.

Global Instance eq_dec : EqDecision t.
Proof. solve_decision. Defined.

Definition value (e : t) : string :=
  match e with
  | ANY => "any" | LINUX => "linux" | WINDOWS => "windows" | DARWIN => "darwin"
  | SOLARIS => "solaris" | BSD => "bsd" | HAIKU => "haiku" | UNKNOWN => "unknown"
  end.

(** [e in aeTargets] *)
Definition mem (e : t) (l : list t) : bool := bool_decide (e ∈ l).

End BuildTargets.

(** ** The host *)

(** What [subprocess.run(..., check=False, timeout=...)] does: it returns a
    completed process, or raises [subprocess.SubprocessError] (a timeout),
    or raises [OSError] (the program cannot be started). *)
Inductive ProcResult :=
| Completed (returncode : Z) (stdout stderr : string)
| ProcSubprocessError (msg : string)
| ProcOSError (msg : string).

(** The standard-library calls the script makes, as oracles, and the two
    option globals [g_fDebug] and [g_cVerbosity] that [main] fixes from the
    command line before any probe runs. *)
Record Host := MkHost {
  platform_system : string;
  platform_machine : string;
  os_sep : string;
  os_path_join : string → string → string;
  os_path_exists : string → bool;
  os_path_isfile : string → bool;
  os_path_isdir : string → bool;
  os_access_X_OK : string → bool;
  shutil_which : string → option string;
  glob_glob : string → list string;
  subprocess_run : list string → ProcResult;
  tempfile_mkdtemp : string;
  open_write : string → string → option string;
  os_remove : string → option string;
  g_sScriptPath : string;
  g_fDebug : bool;
  g_cVerbosity : nat
}.

(** [g_enmHostArch]: the dictionary lookup on [platform.machine()]. *)
Definition g_enmHostArch (h : Host) : BuildArch.t :=
  let m := platform_machine h in
  if String.eqb m "i386" then BuildArch.X86
  else if String.eqb m "i686" then BuildArch.X86
  else if String.eqb m "x86_64" then BuildArch.AMD64
  else if String.eqb m "amd64" then BuildArch.AMD64
  else if String.eqb m "aarch64" then BuildArch.ARM64
  else if String.eqb m "arm64" then BuildArch.ARM64
  else BuildArch.UNKNOWN.

Definition g_enmBuildArch (h : Host) : BuildArch.t := g_enmHostArch h.

(** [g_enmHostTarget]: the dictionary lookup on [platform.system().lower()]. *)
Definition g_enmHostTarget (h : Host) : BuildTargets.t :=
  let s := PyStr.lower (platform_system h) in
  if String.eqb s "linux" then BuildTargets.LINUX
  else if String.eqb s "win" then BuildTargets.WINDOWS
  else if String.eqb s "darwin" then BuildTargets.DARWIN
  else if String.eqb s "solaris" then BuildTargets.SOLARIS
  else if String.eqb s "freebsd" then BuildTargets.BSD
  else if String.eqb s "openbsd" then BuildTargets.BSD
  else if String.eqb s "netbsd" then BuildTargets.BSD
  else if String.eqb s "haiku" then BuildTargets.HAIKU
  else BuildTargets.UNKNOWN.

(** "By default we build for the host system." *)
Definition g_enmBuildTarget (h : Host) : BuildTargets.t := g_enmHostTarget h.

(** ** Run state, exceptions and the monad *)

Inductive Exn :=
| TypeError (msg : string)
| KeyError (msg : string)
| IndexError (msg : string)
| SubprocessError (msg : string)
| OSError (msg : string).

Definition is_SubprocessError (e : Exn) : bool :=
  match e with SubprocessError _ => true | _ => false end.

Definition is_OSError (e : Exn) : bool :=
  match e with OSError _ => true | _ => false end.

(** [str(ex)] *)
Definition exn_str (e : Exn) : string :=
  match e with
  | KeyError m => PyStr.repr m
  | TypeError m | IndexError m | SubprocessError m | OSError m => m
  end.

Inductive Res (A : Type) :=
| Ok (a : A)
| Raise (e : Exn).
Arguments Ok {A} a.
Arguments Raise {A} e.

(** One entry per call into the host. *)
Inductive HostCall :=
| CallExists (p : string)
| CallIsFile (p : string)
| CallIsDir (p : string)
| CallAccess (p : string)
| CallWhich (name : string)
| CallGlob (pattern : string)
| CallRun (cmd : list string)
| CallMkdtemp
| CallRmtree (p : string)
| CallOpenWrite (p : string)
| CallRemove (p : string).

(** The state of a run as seen from a method of an object of type [Obj]:
    the object itself, the error counter [g_cErrors], the two output
    streams, and the log of host calls (latest first). *)
Record Run (Obj : Type) := MkRun {
  self : Obj;
  g_cErrors : nat;
  err_lines : list string;
  out_lines : list string;
  calls : list HostCall
}.
Arguments MkRun {Obj}.
Arguments self {Obj}.
Arguments g_cErrors {Obj}.
Arguments err_lines {Obj}.
Arguments out_lines {Obj}.
Arguments calls {Obj}.

Definition M (Obj A : Type) : Type := Run Obj → Res A * Run Obj.

Definition ret {Obj A} (a : A) : M Obj A := fun r => (Ok a, r).

Definition bind {Obj A B} (m : M Obj A) (k : A → M Obj B) : M Obj B :=
  fun r => match m r with
           | (Ok a, r') => k a r'
           | (Raise e, r') => (Raise e, r')
           end.

Declare Scope py_scope.
Delimit Scope py_scope with py.
Notation "'let*' x ':=' m 'in' k" := (bind m (fun x => k))
  (at level 10, x pattern, m at level 100, k at level 200) : py_scope.
Notation "m ';;;' k" := (bind m (fun _ => k))
  (at level 100, k at level 200, right associativity) : py_scope.
Open Scope py_scope.

Definition raise {Obj A} (e : Exn) : M Obj A := fun r => (Raise e, r).

(** [try: m except E as ex: k ex], where [handles] recognises [E]. *)
Definition try_except {Obj A} (m : M Obj A) (handles : Exn → bool) (k : Exn → M Obj A) : M Obj A :=
  fun r => match m r with
           | (Raise e, r') => if handles e then k e r' else (Raise e, r')
           | ok => ok
           end.

(** [try: m finally: f] *)
Definition try_finally {Obj A} (m : M Obj A) (f : M Obj unit) : M Obj A :=
  fun r => match m r with
           | (res, r') =>
               match f r' with
               | (Ok _, r'') => (res, r'')
               | (Raise e, r'') => (Raise e, r'')
               end
           end.

Definition get_self {Obj} : M Obj Obj := fun r => (Ok (self r), r).

Definition update_self {Obj} (f : Obj → Obj) : M Obj unit :=
  fun r => (Ok tt, MkRun (f (self r)) (g_cErrors r) (err_lines r) (out_lines r) (calls r)).

Definition log_call {Obj} (c : HostCall) : M Obj unit :=
  fun r => (Ok tt, MkRun (self r) (g_cErrors r) (err_lines r) (out_lines r) (c :: calls r)).

(** [printError]: one line on stderr, and [g_cErrors] goes up by one. *)
Definition printError {Obj} (sMessage : string) : M Obj unit :=
  fun r => (Ok tt, MkRun (self r) (S (g_cErrors r))
                         (("*** Error: " +:+ sMessage) :: err_lines r) (out_lines r) (calls r)).

Definition print {Obj} (sMessage : string) : M Obj unit :=
  fun r => (Ok tt, MkRun (self r) (g_cErrors r) (err_lines r) (sMessage :: out_lines r) (calls r)).

Section WithHost.

Variable h : Host.

Definition printVerbose {Obj} (uVerbosity : nat) (sMessage : string) : M Obj unit :=
  if (uVerbosity <=? g_cVerbosity h)%nat then print ("--- " +:+ sMessage) else ret tt.

Definition exists_ {Obj} (p : string) : M Obj bool :=
  log_call (CallExists p) ;;; ret (os_path_exists h p).

Definition isfile {Obj} (p : string) : M Obj bool :=
  log_call (CallIsFile p) ;;; ret (os_path_isfile h p).

Definition isdir {Obj} (p : string) : M Obj bool :=
  log_call (CallIsDir p) ;;; ret (os_path_isdir h p).

Definition access_X_OK {Obj} (p : string) : M Obj bool :=
  log_call (CallAccess p) ;;; ret (os_access_X_OK h p).

Definition which {Obj} (name : string) : M Obj (option string) :=
  log_call (CallWhich name) ;;; ret (shutil_which h name).

Definition glob {Obj} (pattern : string) : M Obj (list string) :=
  log_call (CallGlob pattern) ;;; ret (glob_glob h pattern).

(** A completed process: return code, decoded stdout, decoded stderr. *)
Definition run {Obj} (cmd : list string) : M Obj (Z * string * string) :=
  log_call (CallRun cmd) ;;;
  match subprocess_run h cmd with
  | Completed rc out err => ret (rc, out, err)
  | ProcSubprocessError msg => raise (SubprocessError msg)
  | ProcOSError msg => raise (OSError msg)
  end.

(** ** checkWhich *)

Definition asSwitches : list string :=
  [ "--version"; "-V"; "/?"; "/h"; "/help"; "-version"; "version" ].

(** The [for sSwitch in asSwitches] loop with the [return] after it. *)
Fixpoint checkWhich_switches {Obj} (sCmdPath : string) (l : list string)
  : M Obj (option string * option string) :=
  match l with
  | [] => ret (Some sCmdPath, Some "<unknown>")
  | sSwitch :: l' =>
      let* (rc, out, _) := run [sCmdPath; sSwitch] in
      if (rc =? 0)%Z then
        match PyStr.first_line (PyStr.strip out) with
        | Some sVer => ret (Some sCmdPath, Some sVer)
        | None => raise (IndexError "list index out of range")
        end
      else checkWhich_switches sCmdPath l'
  end.

(** The part of [checkWhich] from "Try to get version." on. *)
Definition checkWhich_version {Obj} (sCmdName sToolDesc : string) (sCmdPath : option string)
  : M Obj (option string * option string) :=
  match sCmdPath with
  | Some p =>
      if PyStr.truthy p then
        try_except (checkWhich_switches p asSwitches) is_SubprocessError
          (fun ex =>
             printError ("Error while checking version of " +:+ sToolDesc +:+ ": " +:+ exn_str ex) ;;;
             ret (None, None))
      else
        printError ("'" +:+ sCmdName +:+ "' not found in PATH.") ;;; ret (None, None)
  | None =>
      printError ("'" +:+ sCmdName +:+ "' not found in PATH.") ;;; ret (None, None)
  end.

Definition checkWhich {Obj} (sCmdName sToolDesc : string) (sCustomPath : option string)
  : M Obj (option string * option string) :=
  match sCustomPath with
  | Some sCustom =>
      if PyStr.truthy sCustom then
        let sCmdPath := os_path_join h sCustom sCmdName in
        let* fFile := isfile sCmdPath in
        let* fOk := (if fFile then access_X_OK sCmdPath else ret false) in
        if fOk then
          printVerbose 1 ("Found '" +:+ sCmdName +:+ "' at custom path: " +:+ sCmdPath) ;;;
          checkWhich_version sCmdName sToolDesc (Some sCmdPath)
        else
          printError ("'" +:+ sCmdName +:+ "' not found at custom path: " +:+ sCmdPath) ;;;
          ret (None, None)
      else
        let* sCmdPath := which sCmdName in
        (if PyStr.truthy_opt sCmdPath
         then printVerbose 1 ("Found '" +:+ sCmdName +:+ "' at: " +:+ PyStr.fmt_opt sCmdPath)
         else ret tt) ;;;
        checkWhich_version sCmdName sToolDesc sCmdPath
  | None =>
      let* sCmdPath := which sCmdName in
      (if PyStr.truthy_opt sCmdPath
       then printVerbose 1 ("Found '" +:+ sCmdName +:+ "' at: " +:+ PyStr.fmt_opt sCmdPath)
       else ret tt) ;;;
      checkWhich_version sCmdName sToolDesc sCmdPath
  end.

End WithHost.

(** [a + b] where [a] is a string and [b] is a string or [None]. *)
Definition str_add {Obj} (a : string) (b : option string) : M Obj string :=
  match b with
  | Some s => ret (a +:+ s)
  | None =>
      raise (TypeError ("can only concatenate str (not " +:+ PyStr.of_char PyStr.dquote +:+
                        "NoneType" +:+ PyStr.of_char PyStr.dquote +:+ ") to str"))
  end.

(** [[x for x in l if f(x)]] with [f] a host call. *)
Fixpoint filterM {Obj A} (f : A → M Obj bool) (l : list A) : M Obj (list A) :=
  match l with
  | [] => ret []
  | x :: l' =>
      let* b := f x in
      let* r := filterM f l' in
      ret (if b then x :: r else r)
  end.

(** ** LibraryCheck *)

Module LibraryCheck.

Record t := Mk {
  sName : string;
  asIncFiles : list string;
  asLibFiles : list string;
  sCode : string;
  aeTargets : list BuildTargets.t;
  aeTargetsExcluded : list BuildTargets.t;
  asAltIncFiles : list string;
  fDisabled : bool;
  sCustomPath : option string;
  sIncPath : option string;
  sLibPath : option string;
  (* "Is a tri-state: None if not required (optional or not needed),
     False if required but not found, True if found." *)
  fHave : option bool;
  (* "Only valid if self.fHave is True." *)
  sVer : option string
}.

(** [__init__] *)
Definition init (sName : string) (asIncFiles asLibFiles : list string)
    (aeTargets : list BuildTargets.t) (sCode : string)
    (aeTargetsExcluded : list BuildTargets.t) (asAltIncFiles : list string) : t :=
  Mk sName asIncFiles asLibFiles sCode aeTargets aeTargetsExcluded asAltIncFiles
     false None None None None None.

Definition set_fDisabled (v : bool) (o : t) : t :=
  Mk (sName o) (asIncFiles o) (asLibFiles o) (sCode o) (aeTargets o) (aeTargetsExcluded o)
     (asAltIncFiles o) v (sCustomPath o) (sIncPath o) (sLibPath o) (fHave o) (sVer o).

Definition set_sCustomPath (v : option string) (o : t) : t :=
  Mk (sName o) (asIncFiles o) (asLibFiles o) (sCode o) (aeTargets o) (aeTargetsExcluded o)
     (asAltIncFiles o) (fDisabled o) v (sIncPath o) (sLibPath o) (fHave o) (sVer o).

Definition set_sIncPath (v : option string) (o : t) : t :=
  Mk (sName o) (asIncFiles o) (asLibFiles o) (sCode o) (aeTargets o) (aeTargetsExcluded o)
     (asAltIncFiles o) (fDisabled o) (sCustomPath o) v (sLibPath o) (fHave o) (sVer o).

Definition set_sLibPath (v : option string) (o : t) : t :=
  Mk (sName o) (asIncFiles o) (asLibFiles o) (sCode o) (aeTargets o) (aeTargetsExcluded o)
     (asAltIncFiles o) (fDisabled o) (sCustomPath o) (sIncPath o) v (fHave o) (sVer o).

Definition set_fHave (v : option bool) (o : t) : t :=
  Mk (sName o) (asIncFiles o) (asLibFiles o) (sCode o) (aeTargets o) (aeTargetsExcluded o)
     (asAltIncFiles o) (fDisabled o) (sCustomPath o) (sIncPath o) (sLibPath o) v (sVer o).

Definition set_sVer (v : option string) (o : t) : t :=
  Mk (sName o) (asIncFiles o) (asLibFiles o) (sCode o) (aeTargets o) (aeTargetsExcluded o)
     (asAltIncFiles o) (fDisabled o) (sCustomPath o) (sIncPath o) (sLibPath o) (fHave o) v.

Definition asCPPHdr : list string :=
  [ "c++"; "iostream"; "Qt"; "qt"; "qglobal.h"; "qcoreapplication.h" ].

(** [hasCPPHeader].  The list scanned is [[self.asIncFiles] + self.asAltIncFiles]:
    its first element is the list [asIncFiles] itself, for which [c in h]
    is list membership; the others are strings, for which it is substring
    search. *)
Definition hasCPPHeader (o : t) : bool :=
  (match asIncFiles o with [] => false | _ => true end
   && existsb (fun c => bool_decide (c ∈ asIncFiles o)) asCPPHdr)
  || existsb (fun hdr => PyStr.truthy hdr && existsb (fun c => PyStr.contains c hdr) asCPPHdr)
             (asAltIncFiles o).

(** [setArgs]: the two [getattr] results are the arguments; a missing or
    [None] disable flag is false. *)
Definition setArgs (config_libs_disable : bool) (config_libs_path : option string)
  : M t unit :=
  update_self (set_fDisabled config_libs_disable) ;;;
  update_self (set_sCustomPath config_libs_path).

(** [getLinuxGnuTypeFromPlatform]: the lookup in [mapPlatform2GnuType]. *)
Definition mapPlatform2GnuType : list (string * string) :=
  [ ("x86_64", "x86_64-linux-gnu");
    ("amd64", "x86_64-linux-gnu");
    ("i386", "i386-linux-gnu");
    ("i686", "i386-linux-gnu");
    ("aarch64", "aarch64-linux-gnu");
    ("arm64", "aarch64-linux-gnu");
    ("armv7l", "arm-linux-gnueabihf");
    ("armv6l", "arm-linux-gnueabi");
    ("ppc64le", "powerpc64le-linux-gnu");
    ("s390x", "s390x-linux-gnu");
    ("riscv64", "riscv64-linux-gnu") ].

Fixpoint dict_get (k : string) (d : list (string * string)) : option string :=
  match d with
  | [] => None
  | (k', v) :: d' => if String.eqb k k' then Some v else dict_get k d'
  end.

Definition asDriveLetters : list string :=
  [ "C"; "D"; "E"; "F"; "G"; "H"; "I"; "J"; "K"; "L"; "M"; "N";
    "O"; "P"; "Q"; "R"; "S"; "T"; "U"; "V"; "W"; "X"; "Y"; "Z" ].

Section WithHost.

Variable h : Host.

(** [getLinkerArgs] *)
Fixpoint getLinkerArgs_loop (l : list string) : list string :=
  match l with
  | [] => []
  | sLibCur :: l' =>
      (if bool_decide (g_enmBuildTarget h ≠ BuildTargets.WINDOWS) then
         [ "-l" +:+ (if PyStr.startswith sLibCur "lib"
                     then PyStr.drop 3 sLibCur
                     else ":" +:+ sLibCur) ]
       else [])
      ++ getLinkerArgs_loop l'
  end.

Definition getLinkerArgs (o : t) : list string :=
  match asLibFiles o with
  | [] => []
  | l => getLinkerArgs_loop l
  end.

Definition getLinuxGnuTypeFromPlatform : option string :=
  dict_get (PyStr.lower (platform_machine h)) mapPlatform2GnuType.

(** The drives that exist: [[d+":" for d in "CDEF...Z" if os.path.exists(d+":")]]. *)
Definition root_drives : M t (list string) :=
  filterM (exists_ h) (map (fun d => d +:+ ":") asDriveLetters).

(** [getIncSearchPaths] *)
Definition getIncSearchPaths : M t (list string) :=
  let* o := get_self in
  let asPaths :=
    (match sCustomPath o with
     | Some c => if PyStr.truthy c then [ os_path_join h c "include" ] else []
     | None => []
     end)
    ++ [ os_path_join h (g_sScriptPath h) "src/libs" ] in
  let* asPaths :=
    if bool_decide (g_enmBuildTarget h = BuildTargets.WINDOWS) then
      let* asRootDrivers := root_drives in
      ret (asPaths ++
           flat_map (fun r =>
                       map (os_path_join h r)
                           [ "\msys64\mingw64\include"; "\msys64\mingw32\include"; "\include" ]
                       ++ [ "c:\\Program Files"; "c:\\Program Files (x86)" ])
                    asRootDrivers)
    else
      let sGnuType := getLinuxGnuTypeFromPlatform in
      let* p1 := str_add "/usr/include/" sGnuType in
      let* p2 := str_add "/usr/local/include/" sGnuType in
      let asPaths :=
        asPaths ++ [ "/usr/include"; "/usr/local/include"; p1; p2;
                     "/usr/include/" +:+ sName o; "/usr/local/include/" +:+ sName o;
                     "/opt/include"; "/opt/local/include" ] in
      ret (if bool_decide (g_enmBuildTarget h = BuildTargets.DARWIN)
           then asPaths ++ [ "/opt/homebrew/include" ]
           else asPaths) in
  filterM (exists_ h) asPaths.

(** [getLibSearchPaths] *)
Definition getLibSearchPaths : M t (list string) :=
  let* o := get_self in
  let asPaths :=
    (match sCustomPath o with
     | Some c => if PyStr.truthy c then [ os_path_join h c "lib" ] else []
     | None => []
     end)
    ++ [ os_path_join h (g_sScriptPath h) "src/libs" ] in
  let* asPaths :=
    if bool_decide (g_enmBuildTarget h = BuildTargets.WINDOWS) then
      let* root_drives := root_drives in
      ret (asPaths ++
           flat_map (fun r =>
                       map (os_path_join h r)
                           [ "\msys64\mingw64\lib"; "\msys64\mingw32\lib"; "\lib" ]
                       ++ [ "c:\\Program Files"; "c:\\Program Files (x86)" ])
                    root_drives)
    else if bool_decide (g_enmBuildTarget h = BuildTargets.LINUX)
            || bool_decide (g_enmBuildTarget h = BuildTargets.SOLARIS) then
      let sGnuType := getLinuxGnuTypeFromPlatform in
      let* p1 := str_add "/usr/lib/" sGnuType in
      let* p2 := str_add "/opt/local/lib/" sGnuType in
      (* an assignment, not an extension: what [asPaths] held is dropped *)
      ret [ "/usr/lib"; "/usr/local/lib"; p1; p2;
            "/usr/lib64"; "/lib"; "/lib64"; "/opt/lib"; "/opt/local/lib" ]
    else
      ret (asPaths ++ [ "/opt/homebrew/lib" ]) in
  filterM (exists_ h) asPaths.

(** [checkInc]: the loop over the header names for one search path.
    [true] is the [return True]; [false] means the loop ran to its end. *)
Fixpoint checkInc_headers (sCurSearchPath : string) (l : list string) : M t bool :=
  match l with
  | [] => ret false
  | sCurHeader :: l' =>
      let* f1 := isfile h (os_path_join h sCurSearchPath sCurHeader) in
      if f1 then
        update_self (set_sIncPath (Some sCurSearchPath)) ;;; ret true
      else if String.eqb (os_sep h) (PyStr.of_char PyStr.backslash) then
        let* f2 := isfile h (os_path_join h sCurSearchPath
                               (PyStr.replace_char "/" PyStr.backslash sCurHeader)) in
        if f2 then
          update_self (set_sIncPath (Some sCurSearchPath)) ;;; ret true
        else checkInc_headers sCurSearchPath l'
      else checkInc_headers sCurSearchPath l'
  end.

Fixpoint checkInc_paths (asHeaderToSearch : list string) (l : list string) : M t bool :=
  match l with
  | [] => ret false
  | sCurSearchPath :: l' =>
      let* f := checkInc_headers sCurSearchPath asHeaderToSearch in
      if f then ret true else checkInc_paths asHeaderToSearch l'
  end.

Definition checkInc : M t bool :=
  let* o := get_self in
  match asIncFiles o, asAltIncFiles o with
  | [], [] => ret true
  | _, _ =>
      let asHeaderToSearch := asIncFiles o ++ asAltIncFiles o in
      let* asSearchPaths := getIncSearchPaths in
      let* f := checkInc_paths asHeaderToSearch asSearchPaths in
      if f then ret true
      else
        printError ("Header files " +:+ PyStr.repr_list asHeaderToSearch +:+
                    " not found in paths: " +:+ PyStr.repr_list asSearchPaths) ;;;
        ret false
  end.

(** [checkLib].  [sBasename] is bound to the list [self.asLibFiles], so the
    f-string puts the text of the whole list in front of the star. *)
Definition asLibExts : list string :=
  if bool_decide (g_enmBuildTarget h = BuildTargets.WINDOWS) then [ ".lib"; ".dll"; ".a"; ".dll.a" ]
  else if bool_decide (g_enmBuildTarget h = BuildTargets.DARWIN) then [ ".a"; ".dylib"; ".so" ]
  else [ ".a"; ".so" ].

Definition checkLib_pattern (o : t) (sCurSearchPath sCurExt : string) : string :=
  os_path_join h sCurSearchPath (PyStr.repr_list (asLibFiles o) +:+ "*" +:+ sCurExt).

Fixpoint checkLib_files (sCurSearchPath : string) (l : list string) : M t bool :=
  match l with
  | [] => ret false
  | sCurFile :: l' =>
      let* f := isfile h sCurFile in
      if f then update_self (set_sLibPath (Some sCurSearchPath)) ;;; ret true
      else checkLib_files sCurSearchPath l'
  end.

Fixpoint checkLib_exts (sCurSearchPath : string) (l : list string) : M t bool :=
  match l with
  | [] => ret false
  | sCurExt :: l' =>
      let* o := get_self in
      let* asFiles := glob h (checkLib_pattern o sCurSearchPath sCurExt) in
      let* f := checkLib_files sCurSearchPath asFiles in
      if f then ret true else checkLib_exts sCurSearchPath l'
  end.

Fixpoint checkLib_paths (l : list string) : M t bool :=
  match l with
  | [] => ret false
  | sCurSearchPath :: l' =>
      let* f := checkLib_exts sCurSearchPath asLibExts in
      if f then ret true else checkLib_paths l'
  end.

Definition checkLib : M t bool :=
  let* o := get_self in
  match asLibFiles o with
  | [] => ret true
  | _ =>
      let* asSearchPaths := getLibSearchPaths in
      let* f := checkLib_paths asSearchPaths in
      if f then ret true
      else
        printError ("Library files " +:+ PyStr.repr_list (asLibFiles o) +:+
                    " not found in paths: " +:+ PyStr.repr_list asSearchPaths) ;;;
        ret false
  end.

(** [performCheck] *)
Definition performCheck : M t unit :=
  let* o := get_self in
  if BuildTargets.mem (g_enmBuildTarget h) (aeTargetsExcluded o) then
    update_self (set_fHave None)
  else if fDisabled o then
    update_self (set_fHave None)
  else if BuildTargets.mem (g_enmBuildTarget h) (aeTargets o)
          || BuildTargets.mem BuildTargets.ANY (aeTargets o) then
    let* fInc := checkInc in
    let* f := (if fInc then checkLib else ret false) in
    update_self (set_fHave (Some f))
  else ret tt.

(** [with open(sFilePath, "w") as fh: fh.write(...)] *)
Definition write_file (p content : string) : M t unit :=
  log_call (CallOpenWrite p) ;;;
  match open_write h p content with
  | None => ret tt
  | Some msg => raise (OSError msg)
  end.

Definition remove (p : string) : M t unit :=
  log_call (CallRemove p) ;;;
  match os_remove h p with
  | None => ret tt
  | Some msg => raise (OSError msg)
  end.

(** [compileAndExecute]: its local variables, then the method. *)
Definition sCompiler (o : t) : string := if hasCPPHeader o then "g++" else "gcc".

Definition sTempDir : string := if g_fDebug h then "/tmp/" else tempfile_mkdtemp h.

Definition sFilePath (o : t) : string :=
  os_path_join h sTempDir
    (if String.eqb (sCompiler o) "g++" then "testlib.cpp" else "testlib.c").

Definition sBinPath : string :=
  os_path_join h sTempDir
    (if negb (String.eqb (platform_system h) "Windows") then "a.out" else "a.exe").

Definition asCmd (o : t) : list string :=
  [ sCompiler o; sFilePath o; "-I" +:+ PyStr.fmt_opt (sIncPath o);
    "-L" +:+ PyStr.fmt_opt (sLibPath o); "-o"; sBinPath ] ++ getLinkerArgs o.

Definition compileAndExecute : M t unit :=
  let* o := get_self in
  log_call CallMkdtemp ;;;
  try_finally
    (write_file (sFilePath o) (sCode o) ;;;
     try_except
       (let* (rc, _, err) := run h (asCmd o) in
        if negb (rc =? 0)%Z then printError err
        else
          try_finally
            (try_except
               (let* (rc, out, err) := run h [ sBinPath ] in
                if (rc =? 0)%Z then update_self (set_sVer (Some (PyStr.strip out)))
                else
                  printError ("Execution of test binary for " +:+ sName o +:+
                              " failed with return code " +:+ PyStr.of_Z rc +:+ ":") ;;;
                  printError err)
               is_SubprocessError
               (fun ex => printError ("Execution of test binary for " +:+ sName o +:+
                                      " failed: " +:+ exn_str ex)))
            (try_except
               (if negb (g_fDebug h) then remove sBinPath else ret tt)
               is_OSError
               (fun ex => printError ("Failed to remove temporary binary file " +:+ sBinPath +:+
                                      ": " +:+ exn_str ex))))
       is_SubprocessError
       (fun e => printError (exn_str e)))
    (log_call (CallRmtree (tempfile_mkdtemp h))).


End WithHost.

End LibraryCheck.

(** ** ToolCheck *)

Module ToolCheck.

(** The two callbacks of the catalogue. *)
Inductive Callback := checkCallback_OpenWatcom | checkCallback_XCode.

(** [aeTargets] is a list of targets, or, when the constructor's default
    is taken, the string [BuildTargets.ANY] itself. *)
Inductive Targets :=
| TargetList (l : list BuildTargets.t)
| TargetDefault.

(** [e in self.aeTargets]: list membership, or substring search in the
    default string. *)
Definition mem (e : BuildTargets.t) (ts : Targets) : bool :=
  match ts with
  | TargetList l => BuildTargets.mem e l
  | TargetDefault => PyStr.contains (BuildTargets.value e) (BuildTargets.value BuildTargets.ANY)
  end.

Record t := Mk {
  sName : string;
  fnCallback : option Callback;
  aeTargets : Targets;
  fDisabled : bool;
  sCustomPath : option string;
  (* "Is a tri-state: None if not required (optional or not needed),
     False if required but not found, True if found." *)
  fHave : option bool;
  (* "List of command names (binaries) to check for.
     A tool can have multiple binaries."  [None] is the constructor's default. *)
  asCmd : option (list string);
  (* "Path to the found command.  Only valid if self.fHave is True." *)
  sCmdPath : option string;
  (* "Only valid if self.fHave is True." *)
  sVer : option string
}.

(** [__init__] *)
Definition init (sName : string) (asCmd : option (list string))
    (fnCallback : option Callback) (aeTargets : Targets) : t :=
  Mk sName fnCallback aeTargets false None None asCmd None None.

Definition set_fDisabled (v : bool) (o : t) : t :=
  Mk (sName o) (fnCallback o) (aeTargets o) v (sCustomPath o) (fHave o) (asCmd o)
     (sCmdPath o) (sVer o).

Definition set_sCustomPath (v : option string) (o : t) : t :=
  Mk (sName o) (fnCallback o) (aeTargets o) (fDisabled o) v (fHave o) (asCmd o)
     (sCmdPath o) (sVer o).

Definition set_fHave (v : option bool) (o : t) : t :=
  Mk (sName o) (fnCallback o) (aeTargets o) (fDisabled o) (sCustomPath o) v (asCmd o)
     (sCmdPath o) (sVer o).

Definition set_sCmdPath (v : option string) (o : t) : t :=
  Mk (sName o) (fnCallback o) (aeTargets o) (fDisabled o) (sCustomPath o) (fHave o) (asCmd o)
     v (sVer o).

Definition set_sVer (v : option string) (o : t) : t :=
  Mk (sName o) (fnCallback o) (aeTargets o) (fDisabled o) (sCustomPath o) (fHave o) (asCmd o)
     (sCmdPath o) v.

(** [setArgs] *)
Definition setArgs (config_tools_disable : bool) (config_tools_path : option string)
  : M t unit :=
  update_self (set_fDisabled config_tools_disable) ;;;
  update_self (set_sCustomPath config_tools_path).

(** [for sCmdCur in self.asCmd] when [asCmd] was never given. *)
Definition iterate_asCmd (o : t) : M t (list string) :=
  match asCmd o with
  | Some l => ret l
  | None => raise (TypeError "'NoneType' object is not iterable")
  end.

Section WithHost.

Variable h : Host.

(** [self.sCmdPath, self.sVer = checkWhich(...)] *)
Definition assign_checkWhich (sCmdCur sToolDesc : string) (sCustom : option string) : M t unit :=
  let* (p, v) := checkWhich h sCmdCur sToolDesc sCustom in
  update_self (set_sCmdPath p) ;;;
  update_self (set_sVer v).

(** [checkCallback_OpenWatcom] *)
Definition mapBuildTarget2Bin (e : BuildTargets.t) : option string :=
  match e with
  | BuildTargets.DARWIN => Some "binosx"
  | BuildTargets.LINUX =>
      Some (if bool_decide (g_enmBuildArch h = BuildArch.AMD64) then "binl64" else "arml64")
  | BuildTargets.SOLARIS => Some "binsol"
  | BuildTargets.WINDOWS => Some "binnt"
  | BuildTargets.BSD => Some "binnbsd"
  | _ => None
  end.

Fixpoint OpenWatcom_loop (sBinSubdir : string) (l : list string) : M t bool :=
  match l with
  | [] => ret true
  | sCmdCur :: l' =>
      let* o := get_self in
      assign_checkWhich sCmdCur "OpenWatcom"
        (match sCustomPath o with
         | Some c => if PyStr.truthy c then Some (os_path_join h c sBinSubdir) else None
         | None => None
         end) ;;;
      let* o := get_self in
      if negb (PyStr.truthy_opt (sCmdPath o)) then ret false
      else OpenWatcom_loop sBinSubdir l'
  end.

Definition run_OpenWatcom : M t bool :=
  match mapBuildTarget2Bin (g_enmBuildTarget h) with
  | None =>
      printError ("OpenWatcom not supported on host target " +:+
                  BuildTargets.value (g_enmBuildTarget h) +:+ ".") ;;;
      ret false
  | Some sBinSubdir =>
      let* o := get_self in
      let* l := iterate_asCmd o in
      OpenWatcom_loop sBinSubdir l
  end.

(** [checkCallback_XCode] *)
Fixpoint XCode_loop (l : list string) : M t bool :=
  match l with
  | [] => ret false
  | sPathCur :: l' =>
      let* fDir := isdir h sPathCur in
      if fDir then
        let sPathClang := os_path_join h sPathCur "usr/bin/clang" in
        let sPathXcodebuild := os_path_join h sPathCur "usr/bin/xcodebuild" in
        printVerbose h 1 ("(" +:+ PyStr.repr "Checking for CommandLineTools at:" +:+ ", " +:+
                          PyStr.repr sPathCur +:+ ")") ;;;
        let* f1 := isfile h sPathClang in
        let* f2 := (if f1 then isfile h sPathXcodebuild else ret false) in
        if f2 then
          print ("Found CommandLineTools at: " +:+ sPathCur) ;;;
          update_self (set_sCmdPath (Some sPathXcodebuild)) ;;;
          ret true
        else XCode_loop l'
      else XCode_loop l'
  end.

Definition run_XCode : M t bool :=
  let* o := get_self in
  let asPathsToCheck :=
    (match sCustomPath o with
     | Some c => if PyStr.truthy c then [ c ] else []
     | None => []
     end) ++ [ "/Library/Developer/CommandLineTools" ] in
  let* f := XCode_loop asPathsToCheck in
  if f then ret true
  else printError "CommandLineTools not found." ;;; ret false.

Definition run_callback (cb : Callback) : M t bool :=
  match cb with
  | checkCallback_OpenWatcom => run_OpenWatcom
  | checkCallback_XCode => run_XCode
  end.

(** [performCheck]: the loop over [self.asCmd] for a tool without callback.
    [false] is the [return False] inside the loop; [true] means the loop
    ran to its end, after which the method returns [True]. *)
Fixpoint performCheck_loop (l : list string) : M t bool :=
  match l with
  | [] => ret true
  | sCmdCur :: l' =>
      let* o := get_self in
      assign_checkWhich sCmdCur (sName o) (sCustomPath o) ;;;
      let* o := get_self in
      if PyStr.truthy_opt (sCmdPath o) then
        update_self (set_fHave (Some true)) ;;;
        performCheck_loop l'
      else ret false
  end.

Definition performCheck : M t bool :=
  let* o := get_self in
  if fDisabled o then
    update_self (set_fHave None) ;;; ret true
  else if mem (g_enmBuildTarget h) (aeTargets o) || mem BuildTargets.ANY (aeTargets o) then
    match fnCallback o with
    | Some cb =>
        let* f := run_callback cb in
        update_self (set_fHave (Some f)) ;;; ret true
    | None =>
        let* l := iterate_asCmd o in
        performCheck_loop l
    end
  else ret true.


End WithHost.

End ToolCheck.

(** ** EnvManager *)

Module EnvManager.

(** The Python values the script puts into the store or passes to [set]. *)
Inductive Val :=
| VStr (s : string)
| VBool (b : bool)
| VInt (z : Z)
| VNone.

Global Instance Val_eq_dec : EqDecision Val.
Proof. solve_decision. Defined.

(** [str(v)] *)
Definition py_str (v : Val) : string :=
  match v with
  | VStr s => s
  | VBool true => "True"
  | VBool false => "False"
  | VInt z => PyStr.of_Z z
  | VNone => "None"
  end.

(** Truth value. *)
Definition truthy (v : Val) : bool :=
  match v with
  | VStr s => PyStr.truthy s
  | VBool b => b
  | VInt z => negb (z =? 0)%Z
  | VNone => false
  end.


(** The object: its one attribute, the dictionary [self.env]. *)
Record t := Mk { env : gmap string Val }.

(** [__init__] *)
Definition init : t := Mk ∅.




(** [get] *)
Definition get (key : string) (default : Val) : M t Val :=
  let* o := get_self in
  ret (match env o !! key with Some v => v | None => default end).

(** [modify] *)
Definition modify (key : string) (func : Val → Val) : M t unit :=
  let* o := get_self in
  match env o !! key with
  | Some v => update_self (fun o => Mk (<[key := VStr (py_str (func v))]> (env o)))
  | None => raise (KeyError (key +:+ " not set in environment"))
  end.




End EnvManager.

(** ** A POSIX host built from a list of files

    The oracles of [Host] as the Python library computes them on a POSIX
    system whose file tree is given by the lists of its regular files and
    directories: [posixpath.join], [posixpath.split], [fnmatch] and the
    one-level [glob] the script needs (a pattern whose directory part has
    no wildcard).  Paths are compared as written. *)

Module Posix.

Definition slash : ascii := ascii_of_nat 47.

Definition endswith_slash (s : string) : bool :=
  match rev (list_ascii_of_string s) with
  | c :: _ => Ascii.eqb c slash
  | [] => false
  end.

(** [posixpath.join(a, b)] *)
Definition join (a b : string) : string :=
  if PyStr.startswith b "/" then b
  else if negb (PyStr.truthy a) || endswith_slash a then a +:+ b
  else a +:+ "/" +:+ b.

Fixpoint span_not_slash (l : list ascii) : list ascii * list ascii :=
  match l with
  | [] => ([], [])
  | c :: l' =>
      if Ascii.eqb c slash then ([], l)
      else let (a, b) := span_not_slash l' in (c :: a, b)
  end.

Fixpoint drop_slashes (l : list ascii) : list ascii :=
  match l with
  | c :: l' => if Ascii.eqb c slash then drop_slashes l' else l
  | [] => []
  end.

(** [posixpath.split(p)]: head and tail around the last slash; trailing
    slashes are stripped from a head that is not all slashes. *)
Definition split (p : string) : string * string :=
  let (tail_rev, head_rev) := span_not_slash (rev (list_ascii_of_string p)) in
  let head_rev' := match drop_slashes head_rev with [] => head_rev | stripped => stripped end in
  (string_of_list_ascii (rev head_rev'), string_of_list_ascii (rev tail_rev)).

(** *** fnmatch *)

Inductive Tok :=
| TStar
| TAny
| TLit (c : ascii)
| TClass (neg : bool) (items : list (ascii * ascii)).

(** The text up to the first closing bracket, and what follows it. *)
Fixpoint find_close (l : list ascii) : option (list ascii * list ascii) :=
  match l with
  | [] => None
  | c :: l' =>
      if Ascii.eqb c "]" then Some ([], l')
      else match find_close l' with
           | Some (a, b) => Some (c :: a, b)
           | None => None
           end
  end.

(** After an opening bracket: an optional [!], then the set, in which a
    closing bracket in first place is an ordinary member. *)
Definition split_class (l : list ascii) : option (bool * list ascii * list ascii) :=
  let (neg, l1) := match l with
                   | c :: l' => if Ascii.eqb c "!" then (true, l') else (false, l)
                   | [] => (false, l)
                   end in
  match l1 with
  | c :: l2 =>
      if Ascii.eqb c "]" then
        match find_close l2 with
        | Some (a, b) => Some (neg, c :: a, b)
        | None => None
        end
      else
        match find_close l1 with
        | Some (a, b) => Some (neg, a, b)
        | None => None
        end
  | [] => None
  end.

(** The members of a set: [a-b] is a range, anything else stands for itself. *)
Fixpoint class_items (l : list ascii) : list (ascii * ascii) :=
  match l with
  | [] => []
  | c1 :: l1 =>
      match l1 with
      | d :: c2 :: l2 =>
          if Ascii.eqb d "-" then (c1, c2) :: class_items l2
          else (c1, c1) :: class_items l1
      | _ => (c1, c1) :: class_items l1
      end
  end.

Fixpoint parse (fuel : nat) (l : list ascii) : list Tok :=
  match fuel with
  | O => []
  | S fuel' =>
      match l with
      | [] => []
      | c :: l' =>
          if Ascii.eqb c "*" then TStar :: parse fuel' l'
          else if Ascii.eqb c "?" then TAny :: parse fuel' l'
          else if Ascii.eqb c "[" then
            match split_class l' with
            | Some (neg, body, rest) => TClass neg (class_items body) :: parse fuel' rest
            | None => TLit c :: parse fuel' l'
            end
          else TLit c :: parse fuel' l'
      end
  end.

Definition in_class (items : list (ascii * ascii)) (c : ascii) : bool :=
  existsb (fun '(lo, hi) => (nat_of_ascii lo <=? nat_of_ascii c)%nat
                            && (nat_of_ascii c <=? nat_of_ascii hi)%nat) items.

Fixpoint match_toks (ts : list Tok) (s : list ascii) {struct ts} : bool :=
  match ts with
  | [] => match s with [] => true | _ => false end
  | TStar :: ts' =>
      (fix skip (s : list ascii) : bool :=
         match_toks ts' s || match s with [] => false | _ :: s' => skip s' end) s
  | TAny :: ts' => match s with _ :: s' => match_toks ts' s' | [] => false end
  | TLit c :: ts' => match s with c' :: s' => Ascii.eqb c c' && match_toks ts' s' | [] => false end
  | TClass neg items :: ts' =>
      match s with
      | c' :: s' => xorb neg (in_class items c') && match_toks ts' s'
      | [] => false
      end
  end.

(** [fnmatch.fnmatchcase(name, pat)] *)
Definition fnmatch (name pat : string) : bool :=
  match_toks (parse (String.length pat) (list_ascii_of_string pat)) (list_ascii_of_string name).

(** *** The file tree *)

Record Tree := MkTree {
  files : list string;       (* regular files *)
  dirs : list string;        (* directories *)
  executables : list string; (* files with the execute permission *)
  search_path : list string  (* the directories of PATH *)
}.

Definition has (l : list string) (p : string) : bool := bool_decide (p ∈ l).

(** [os.listdir(d)] *)
Definition listdir (t : Tree) (d : string) : list string :=
  flat_map (fun p => let (hd, tl) := split p in
                     if String.eqb hd d && PyStr.truthy tl then [ tl ] else [])
           (files t ++ dirs t).

(** [glob.glob(pattern)]: the entries of the directory part that match the
    last component; names with a leading dot only for a pattern with one. *)
Definition glob (t : Tree) (pattern : string) : list string :=
  let (dirname, basename) := split pattern in
  map (join dirname)
      (filter (fun name => (PyStr.startswith basename "." || negb (PyStr.startswith name "."))
                           && fnmatch name basename)
              (listdir t dirname)).

(** [shutil.which(name)] for a bare command name. *)
Definition which (t : Tree) (name : string) : option string :=
  head (filter (fun p => has (files t) p && has (executables t) p)
               (map (fun d => join d name) (search_path t))).

Definition host (system machine : string) (t : Tree)
    (procs : list string → ProcResult) (script_dir tmp : string) : Host :=
  {| platform_system := system;
     platform_machine := machine;
     os_sep := "/";
     os_path_join := join;
     os_path_exists := fun p => has (files t) p || has (dirs t) p;
     os_path_isfile := has (files t);
     os_path_isdir := has (dirs t);
     os_access_X_OK := has (executables t);
     shutil_which := which t;
     glob_glob := glob t;
     subprocess_run := procs;
     tempfile_mkdtemp := tmp;
     open_write := fun _ _ => None;
     os_remove := fun _ => None;
     g_sScriptPath := script_dir;
     g_fDebug := false;
     g_cVerbosity := 0 |}.

End Posix.

(** A run that starts with the object [o], no error counted, nothing
    printed and no host call made. *)
Definition start {Obj} (o : Obj) : Run Obj := MkRun o 0 [] [] [].


(** ** Concrete hosts and probes used in the examples below *)

Module Examples.

(** Every process exits with status 0 and prints a version. *)
Definition procs_ok (cmd : list string) : ProcResult := Completed 0 "1.2.13" EmptyString.

(** The compiler exits with status 1. *)
Definition procs_fail (cmd : list string) : ProcResult := Completed 1 EmptyString "error".

(** The catalogue entry for zlib. *)
Definition zlib : LibraryCheck.t :=
  LibraryCheck.init "zlib1g" [ "zlib.h" ] [ "libz" ] [ BuildTargets.ANY ]
    "#include <zlib.h>" [] [].

(** The catalogue entry for xmu: Linux, Solaris and BSD, Darwin excluded. *)
Definition xmu : LibraryCheck.t :=
  LibraryCheck.init "xmu" [ "X11/Xmu/Xmu.h" ] [ "libXmu" ]
    [ BuildTargets.LINUX; BuildTargets.SOLARIS; BuildTargets.BSD ]
    "#include <X11/Xmu/Xmu.h>" [ BuildTargets.DARWIN ] [].

(** A probe with the library list of the example in the specification. *)
Definition foobar : LibraryCheck.t :=
  LibraryCheck.init "foobar" [ "foo.h" ] [ "libfoo"; "bar" ] [ BuildTargets.ANY ]
    "int main() { return 0; }" [] [].


Definition makeself : ToolCheck.t :=
  ToolCheck.init "makeself" (Some [ "makeself" ]) None (ToolCheck.TargetList [ BuildTargets.LINUX ]).

(** A tree with the zlib header and library, and with both gsoap binaries. *)
Definition tree_full : Posix.Tree :=
  Posix.MkTree
    [ "/usr/include/zlib.h"; "/usr/lib/libz.so"; "/usr/bin/soapcpp2"; "/usr/bin/wsdl2h" ]
    [ "/usr/include"; "/usr/lib"; "/usr/bin"; "/opt/zlib"; "/opt/zlib/include"; "/opt/zlib/lib";
      "/src/src/libs" ]
    [ "/usr/bin/soapcpp2"; "/usr/bin/wsdl2h" ]
    [ "/usr/bin" ].


(** The only file in /usr/lib is not a zlib library. *)
Definition tree_bogus : Posix.Tree :=
  Posix.MkTree [ "/usr/include/zlib.h"; "/usr/lib/bogus.so" ] [ "/usr/include"; "/usr/lib" ]
    [] [ "/usr/bin" ].


(** zlib as it is after a successful [performCheck]. *)
Definition zlib_found : LibraryCheck.t :=
  LibraryCheck.set_fHave (Some true)
    (LibraryCheck.set_sLibPath (Some "/usr/lib")
       (LibraryCheck.set_sIncPath (Some "/usr/include") zlib)).

(** zlib with [--with-zlib1g-path=/opt/zlib]. *)
Definition zlib_custom : LibraryCheck.t :=
  LibraryCheck.set_sCustomPath (Some "/opt/zlib") zlib.

Definition linux (t : Posix.Tree) : Host :=
  Posix.host "Linux" "x86_64" t procs_ok "/src" "/tmp/tmpdir".

Definition linux_ppc64 (t : Posix.Tree) : Host :=
  Posix.host "Linux" "ppc64" t procs_ok "/src" "/tmp/tmpdir".

Definition darwin (t : Posix.Tree) : Host :=
  Posix.host "Darwin" "arm64" t procs_ok "/src" "/tmp/tmpdir".

Definition linux_broken_compiler (t : Posix.Tree) : Host :=
  Posix.host "Linux" "x86_64" t procs_fail "/src" "/tmp/tmpdir".

(** A host that reports the system name that the target table maps to Windows. *)
Definition win (t : Posix.Tree) : Host :=
  Posix.host "win" "amd64" t procs_ok "/src" "/tmp/tmpdir".

End Examples.

(** ** Vocabulary of the properties *)

(** The compile-and-execute step fails: the compiler exits with a non-zero
    status or times out, or the compiled test program does. *)
Inductive VerificationFails (h : Host) (o : LibraryCheck.t) : Prop :=
| CompileFailed (rc : Z) (out err : string) :
    subprocess_run h (LibraryCheck.asCmd h o) = Completed rc out err →
    rc ≠ 0%Z →
    VerificationFails h o
| CompileTimedOut (msg : string) :
    subprocess_run h (LibraryCheck.asCmd h o) = ProcSubprocessError msg →
    VerificationFails h o
| ExecutionFailed (out err : string) (rc : Z) (out' err' : string) :
    subprocess_run h (LibraryCheck.asCmd h o) = Completed 0 out err →
    subprocess_run h [ LibraryCheck.sBinPath h ] = Completed rc out' err' →
    rc ≠ 0%Z →
    VerificationFails h o
| ExecutionTimedOut (out err msg : string) :
    subprocess_run h (LibraryCheck.asCmd h o) = Completed 0 out err →
    subprocess_run h [ LibraryCheck.sBinPath h ] = ProcSubprocessError msg →
    VerificationFails h o.

(** C9's second half as a statement about every store and function: after
    [modify], the key holds what the function returned. *)
Definition modify_stores_function_result : Prop :=
  ∀ (r : Run EnvManager.t) (key : string) (func : EnvManager.Val → EnvManager.Val)
    (v : EnvManager.Val),
    EnvManager.env (self r) !! key = Some v →
    EnvManager.env (self (snd (EnvManager.modify key func r))) !! key = Some (func v).








(** The run state [r] after [n] more errors, the lines [errs] and [outs]
    and the host calls [cs], with the object as it was. *)
Definition extend {Obj} (r : Run Obj) (n : nat) (errs outs : list string) (cs : list HostCall)
  : Run Obj :=
  MkRun (self r) (n + g_cErrors r) (errs ++ err_lines r) (outs ++ out_lines r) (cs ++ calls r).

(** A computation that leaves the object alone, and whose result, output
    and host calls are the same from every run state. *)
Definition pure_effect {Obj A} (m : M Obj A) : Prop :=
  ∃ res n errs outs cs, ∀ r, m r = (res, extend r n errs outs cs).

(** A candidate binary resolves: [checkWhich], called with the probe's name
    and custom root, returns a command path. *)
Definition resolves (h : Host) (o : ToolCheck.t) (sCmd : string) : Prop :=
  ∃ p v, fst (checkWhich h sCmd (ToolCheck.sName o) (ToolCheck.sCustomPath o) (start o))
         = Ok (Some p, v).








(** What [checkWhich] can return: no path and no version, or a non-empty
    path together with a version. *)
Definition checkWhich_shape (a b : option string) : Prop :=
  (a = None ∧ b = None) ∨ (∃ p, a = Some p ∧ PyStr.truthy p = true ∧ is_Some b).











Module TimeoutExample.

(** Every process times out. *)
Definition procs_timeout (cmd : list string) : ProcResult :=
  ProcSubprocessError "timed out after 10 seconds".

(** The Linux host of the examples with such processes. *)
Definition linux (t : Posix.Tree) : Host :=
  Posix.host "Linux" "x86_64" t procs_timeout "/src" "/tmp/tmpdir".

End TimeoutExample.

(** * Properties *)

(** ** getLinkerArgs *)

Lemma getLinkerArgs_loop_windows (h : Host) (l : list string) :
  g_enmBuildTarget h = BuildTargets.WINDOWS → LibraryCheck.getLinkerArgs_loop h l = [].
Proof.
  intros Hw. induction l as [|x l IH]; simpl; [done|].
  rewrite bool_decide_false by (intros Hn; by apply Hn). by rewrite IH.
Qed.

Lemma getLinkerArgs_windows (h : Host) (o : LibraryCheck.t) :
  g_enmBuildTarget h = BuildTargets.WINDOWS → LibraryCheck.getLinkerArgs h o = [].
Proof.
  intros Hw. unfold LibraryCheck.getLinkerArgs.
  destruct (LibraryCheck.asLibFiles o); [done|]. by apply getLinkerArgs_loop_windows.
Qed.

(** C7.  For the basename list ["libfoo"; "bar"], [getLinkerArgs] yields
    exactly [-lfoo] (prefix stripped) and [-l:bar] (exact file name) on every
    target other than Windows, and the empty list on Windows. *)
Theorem getLinkerArgs_libfoo_bar (h : Host) (o : LibraryCheck.t) :
  LibraryCheck.asLibFiles o = [ "libfoo"; "bar" ] →
  LibraryCheck.getLinkerArgs h o =
    if bool_decide (g_enmBuildTarget h = BuildTargets.WINDOWS) then []
    else [ "-lfoo"; "-l:bar" ].
Proof.
  intros Hl. case_bool_decide as Hw.
  - by apply getLinkerArgs_windows.
  - unfold LibraryCheck.getLinkerArgs. rewrite Hl. simpl.
    by rewrite bool_decide_true.
Qed.

Lemma getLinkerArgs_libfoo_bar_witness :
  LibraryCheck.getLinkerArgs (Examples.linux Examples.tree_full) Examples.foobar
    = [ "-lfoo"; "-l:bar" ]
  ∧ LibraryCheck.getLinkerArgs (Examples.win Examples.tree_full) Examples.foobar = [].
Proof.
  split.
  - exact (getLinkerArgs_libfoo_bar (Examples.linux Examples.tree_full) Examples.foobar eq_refl).
  - exact (getLinkerArgs_libfoo_bar (Examples.win Examples.tree_full) Examples.foobar eq_refl).
Defined.

(** ** EnvManager.modify *)

(** C9 as stated fails where the function's result is not a string: the
    store holds [True] under a key (as [updateFromArgs] leaves it for a flag
    given on the command line), the function is the identity, and what
    [modify] stores is the text [True]. *)
Lemma modify_stores_string_form : ¬ modify_stores_function_result.
Proof.
  intros Hclaim.
  specialize (Hclaim (start (EnvManager.Mk {[ "VBOX_ONLY_ADDITIONS" := EnvManager.VBool true ]}))
                "VBOX_ONLY_ADDITIONS" (fun v => v) (EnvManager.VBool true) eq_refl).
  vm_compute in Hclaim. discriminate.
Qed.

(** C9, amended.  [modify] on an absent key raises [KeyError] and leaves the
    whole run state, the store included, as it was; on a present key it
    stores the string form, [str], of the function's result (the result
    itself when that is a string), changes no other key, and touches nothing
    else. *)
Theorem modify_absent_raises_present_replaces
    (r : Run EnvManager.t) (key : string) (func : EnvManager.Val → EnvManager.Val) :
  (EnvManager.env (self r) !! key = None →
     EnvManager.modify key func r
       = (Raise (KeyError (key +:+ " not set in environment")), r))
  ∧ (∀ v, EnvManager.env (self r) !! key = Some v →
     ∃ r', EnvManager.modify key func r = (Ok tt, r')
       ∧ EnvManager.env (self r') !! key = Some (EnvManager.VStr (EnvManager.py_str (func v)))
       ∧ (∀ s, func v = EnvManager.VStr s → EnvManager.env (self r') !! key = Some (func v))
       ∧ (∀ k, k ≠ key → EnvManager.env (self r') !! k = EnvManager.env (self r) !! k)
       ∧ g_cErrors r' = g_cErrors r ∧ err_lines r' = err_lines r
       ∧ out_lines r' = out_lines r ∧ calls r' = calls r).
Proof.
  split.
  - intros Hnone. unfold EnvManager.modify, bind, get_self. by rewrite Hnone.
  - intros v Hsome. unfold EnvManager.modify, bind, get_self. rewrite Hsome.
    eexists. split; [reflexivity|]. simpl.
    split; [by rewrite lookup_insert_eq|].
    split; [intros s Hs; rewrite lookup_insert_eq, Hs; done|].
    split; [intros k Hk; by rewrite lookup_insert_ne|done].
Qed.

Lemma modify_absent_raises_present_replaces_witness :
  let r := start (EnvManager.Mk {[ "VBOX_OSE" := EnvManager.VStr "1" ]}) in
  let f := fun v => EnvManager.VStr (EnvManager.py_str v +:+ "0") in
  EnvManager.modify "VBOX_WITH_DOCS" f r
    = (Raise (KeyError "VBOX_WITH_DOCS not set in environment"), r)
  ∧ ∃ r', EnvManager.modify "VBOX_OSE" f r = (Ok tt, r')
          ∧ EnvManager.env (self r') !! "VBOX_OSE" = Some (EnvManager.VStr "10").
Proof.
  intros r f. split.
  - exact (proj1 (modify_absent_raises_present_replaces r "VBOX_WITH_DOCS" f) eq_refl).
  - destruct (proj2 (modify_absent_raises_present_replaces r "VBOX_OSE" f)
                (EnvManager.VStr "1") eq_refl) as (r' & Hrun & Hval & _).
    exists r'. split; [exact Hrun | exact Hval].
Defined.

(** ** Inapplicable, excluded and disabled probes *)

Lemma mem_false_iff (e : BuildTargets.t) (l : list BuildTargets.t) :
  BuildTargets.mem e l = false ↔ e ∉ l.
Proof. unfold BuildTargets.mem. by rewrite bool_decide_eq_false. Qed.

Lemma mem_true_iff (e : BuildTargets.t) (l : list BuildTargets.t) :
  BuildTargets.mem e l = true ↔ e ∈ l.
Proof. unfold BuildTargets.mem. by rewrite bool_decide_eq_true. Qed.

(** C5.  A library probe whose target is excluded, or that is disabled, or
    whose applicability set holds neither the target nor [ANY], and a tool
    probe that is disabled or inapplicable, come out of [performCheck] with
    [fHave = None] (not checked, never [Some false]) without a single host
    call, without a diagnostic and without raising, whatever the host's file
    system holds.  For the inapplicable case the probe is as constructed:
    not yet checked. *)
Theorem performCheck_skips_inapplicable (h : Host) :
  (∀ r : Run LibraryCheck.t,
     g_enmBuildTarget h ∈ LibraryCheck.aeTargetsExcluded (self r)
     ∨ LibraryCheck.fDisabled (self r) = true
     ∨ ((g_enmBuildTarget h ∉ LibraryCheck.aeTargets (self r))
        ∧ (BuildTargets.ANY ∉ LibraryCheck.aeTargets (self r))
        ∧ LibraryCheck.fHave (self r) = None) →
     ∃ r', LibraryCheck.performCheck h r = (Ok tt, r')
        ∧ LibraryCheck.fHave (self r') = None
        ∧ calls r' = calls r
        ∧ g_cErrors r' = g_cErrors r ∧ err_lines r' = err_lines r
        ∧ LibraryCheck.sIncPath (self r') = LibraryCheck.sIncPath (self r)
        ∧ LibraryCheck.sLibPath (self r') = LibraryCheck.sLibPath (self r)
        ∧ LibraryCheck.sVer (self r') = LibraryCheck.sVer (self r))
  ∧ (∀ r : Run ToolCheck.t,
     ToolCheck.fDisabled (self r) = true
     ∨ (ToolCheck.mem (g_enmBuildTarget h) (ToolCheck.aeTargets (self r)) = false
        ∧ ToolCheck.mem BuildTargets.ANY (ToolCheck.aeTargets (self r)) = false
        ∧ ToolCheck.fHave (self r) = None) →
     ∃ r', ToolCheck.performCheck h r = (Ok true, r')
        ∧ ToolCheck.fHave (self r') = None
        ∧ calls r' = calls r
        ∧ g_cErrors r' = g_cErrors r ∧ err_lines r' = err_lines r
        ∧ ToolCheck.sCmdPath (self r') = ToolCheck.sCmdPath (self r)
        ∧ ToolCheck.sVer (self r') = ToolCheck.sVer (self r)).
Proof.
  split.
  - intros r Hcase. unfold LibraryCheck.performCheck, bind, get_self.
    destruct (BuildTargets.mem (g_enmBuildTarget h) (LibraryCheck.aeTargetsExcluded (self r)))
      eqn:Hex.
    { eexists; split; [reflexivity|]; simpl; done. }
    destruct (LibraryCheck.fDisabled (self r)) eqn:Hdis.
    { eexists; split; [reflexivity|]; simpl; done. }
    destruct Hcase as [Hin | [Hd | (Hnt & Hna & Hfresh)]].
    + apply mem_true_iff in Hin. congruence.
    + discriminate.
    + apply mem_false_iff in Hnt, Hna. rewrite Hnt, Hna. simpl.
      eexists; split; [reflexivity|]. done.
  - intros r Hcase. unfold ToolCheck.performCheck, bind, get_self.
    destruct (ToolCheck.fDisabled (self r)) eqn:Hdis.
    { eexists; split; [reflexivity|]; simpl; done. }
    destruct Hcase as [Hd | (Hnt & Hna & Hfresh)]; [discriminate|].
    rewrite Hnt, Hna. simpl. eexists; split; [reflexivity|]. done.
Qed.

Lemma performCheck_skips_inapplicable_witness :
  (* xmu on Darwin: excluded *)
  (∃ r', LibraryCheck.performCheck (Examples.darwin Examples.tree_full) (start Examples.xmu)
           = (Ok tt, r')
         ∧ LibraryCheck.fHave (self r') = None ∧ calls r' = [])
  (* zlib, disabled, header and library present *)
  ∧ (∃ r', LibraryCheck.performCheck (Examples.linux Examples.tree_full)
             (start (LibraryCheck.set_fDisabled true Examples.zlib)) = (Ok tt, r')
           ∧ LibraryCheck.fHave (self r') = None ∧ calls r' = [])
  (* makeself on Darwin: not applicable *)
  ∧ (∃ r', ToolCheck.performCheck (Examples.darwin Examples.tree_full) (start Examples.makeself)
             = (Ok true, r')
           ∧ ToolCheck.fHave (self r') = None ∧ calls r' = []).
Proof.
  split; [|split].
  - destruct (proj1 (performCheck_skips_inapplicable (Examples.darwin Examples.tree_full))
                (start Examples.xmu)) as (r' & Hrun & Hhave & Hcalls & _).
    { left. vm_compute. apply list_elem_of_here. }
    exists r'. split; [exact Hrun|]. split; [exact Hhave | exact Hcalls].
  - destruct (proj1 (performCheck_skips_inapplicable (Examples.linux Examples.tree_full))
                (start (LibraryCheck.set_fDisabled true Examples.zlib)))
      as (r' & Hrun & Hhave & Hcalls & _).
    { right. left. reflexivity. }
    exists r'. split; [exact Hrun|]. split; [exact Hhave | exact Hcalls].
  - destruct (proj2 (performCheck_skips_inapplicable (Examples.darwin Examples.tree_full))
                (start Examples.makeself)) as (r' & Hrun & Hhave & Hcalls & _).
    { right. split; [reflexivity|]. split; reflexivity. }
    exists r'. split; [exact Hrun|]. split; [exact Hhave | exact Hcalls].
Defined.

(** ** A machine the triplet table does not know *)

Lemma getIncSearchPaths_unknown_machine (h : Host) (r : Run LibraryCheck.t) :
  g_enmBuildTarget h ≠ BuildTargets.WINDOWS →
  LibraryCheck.getLinuxGnuTypeFromPlatform h = None →
  LibraryCheck.getIncSearchPaths h r
    = (Raise (TypeError ("can only concatenate str (not " +:+ PyStr.of_char PyStr.dquote +:+
                         "NoneType" +:+ PyStr.of_char PyStr.dquote +:+ ") to str")), r).
Proof.
  intros Hw Hg. unfold LibraryCheck.getIncSearchPaths, bind, get_self.
  rewrite bool_decide_false by done. rewrite Hg. simpl. by destruct r.
Qed.

Lemma getLibSearchPaths_unknown_machine (h : Host) (r : Run LibraryCheck.t) :
  g_enmBuildTarget h = BuildTargets.LINUX ∨ g_enmBuildTarget h = BuildTargets.SOLARIS →
  LibraryCheck.getLinuxGnuTypeFromPlatform h = None →
  LibraryCheck.getLibSearchPaths h r
    = (Raise (TypeError ("can only concatenate str (not " +:+ PyStr.of_char PyStr.dquote +:+
                         "NoneType" +:+ PyStr.of_char PyStr.dquote +:+ ") to str")), r).
Proof.
  intros Ht Hg. unfold LibraryCheck.getLibSearchPaths, bind, get_self.
  rewrite Hg.
  destruct Ht as [Ht | Ht]; rewrite Ht; simpl; by destruct r.
Qed.

(** C10.  On a target other than Windows, on a machine that
    [mapPlatform2GnuType] does not list, [getIncSearchPaths] raises
    [TypeError] (a string is added to [None]) instead of returning a list; on
    Linux and Solaris so does [getLibSearchPaths]; and [performCheck] of an
    applicable, enabled probe with a header to look for ends in that
    exception, with no diagnostic printed and [fHave] never set. *)
Theorem unknown_machine_raises_TypeError (h : Host) :
  g_enmBuildTarget h ≠ BuildTargets.WINDOWS →
  LibraryCheck.getLinuxGnuTypeFromPlatform h = None →
  ∃ msg,
    (∀ r, LibraryCheck.getIncSearchPaths h r = (Raise (TypeError msg), r))
    ∧ (g_enmBuildTarget h = BuildTargets.LINUX ∨ g_enmBuildTarget h = BuildTargets.SOLARIS →
       ∀ r, LibraryCheck.getLibSearchPaths h r = (Raise (TypeError msg), r))
    ∧ (∀ r : Run LibraryCheck.t,
         g_enmBuildTarget h ∉ LibraryCheck.aeTargetsExcluded (self r) →
         LibraryCheck.fDisabled (self r) = false →
         g_enmBuildTarget h ∈ LibraryCheck.aeTargets (self r)
           ∨ BuildTargets.ANY ∈ LibraryCheck.aeTargets (self r) →
         LibraryCheck.asIncFiles (self r) ≠ [] ∨ LibraryCheck.asAltIncFiles (self r) ≠ [] →
         LibraryCheck.performCheck h r = (Raise (TypeError msg), r)).
Proof.
  intros Hw Hg. eexists. split; [|split].
  - intros r. by apply getIncSearchPaths_unknown_machine.
  - intros Ht r. by apply getLibSearchPaths_unknown_machine.
  - intros r Hex Hdis Happ Hhdr.
    unfold LibraryCheck.performCheck, bind, get_self.
    apply mem_false_iff in Hex. rewrite Hex, Hdis.
    assert ((BuildTargets.mem (g_enmBuildTarget h) (LibraryCheck.aeTargets (self r))
             || BuildTargets.mem BuildTargets.ANY (LibraryCheck.aeTargets (self r))) = true) as ->.
    { apply orb_true_iff. destruct Happ as [H1 | H1]; [left | right]; by apply mem_true_iff. }
    unfold LibraryCheck.checkInc, bind, get_self.
    destruct (LibraryCheck.asIncFiles (self r)) eqn:Hinc;
      destruct (LibraryCheck.asAltIncFiles (self r)) eqn:Halt;
      try (by destruct Hhdr);
      by rewrite getIncSearchPaths_unknown_machine.
Qed.

Lemma unknown_machine_raises_TypeError_witness :
  LibraryCheck.getLinuxGnuTypeFromPlatform (Examples.linux_ppc64 Examples.tree_full) = None
  ∧ LibraryCheck.dict_get "mips64" LibraryCheck.mapPlatform2GnuType = None
  ∧ ∃ msg, LibraryCheck.performCheck (Examples.linux_ppc64 Examples.tree_full)
             (start Examples.zlib) = (Raise (TypeError msg), start Examples.zlib).
Proof.
  split; [reflexivity|]. split; [reflexivity|].
  destruct (unknown_machine_raises_TypeError (Examples.linux_ppc64 Examples.tree_full))
    as (msg & _ & _ & Hcheck).
  - vm_compute. discriminate.
  - reflexivity.
  - exists msg. apply Hcheck.
    + vm_compute. apply not_elem_of_nil.
    + reflexivity.
    + right. vm_compute. apply list_elem_of_here.
    + left. discriminate.
Defined.

(** ** Verification failure *)

(** C6.  For a library probe that is Found and has no version yet, a
    compiler failure or timeout, or a failure or timeout of the compiled test
    program, leaves [fHave = Some true] and [sVer = None]; the discovered
    roots stay, too.  If the test source could be written, the step returns
    without raising and has counted at least one error. *)
Theorem compileAndExecute_failure_keeps_found (h : Host) (r : Run LibraryCheck.t) :
  LibraryCheck.fHave (self r) = Some true →
  LibraryCheck.sVer (self r) = None →
  VerificationFails h (self r) →
  LibraryCheck.fHave (self (snd (LibraryCheck.compileAndExecute h r))) = Some true
  ∧ LibraryCheck.sVer (self (snd (LibraryCheck.compileAndExecute h r))) = None
  ∧ LibraryCheck.sIncPath (self (snd (LibraryCheck.compileAndExecute h r)))
      = LibraryCheck.sIncPath (self r)
  ∧ LibraryCheck.sLibPath (self (snd (LibraryCheck.compileAndExecute h r)))
      = LibraryCheck.sLibPath (self r)
  ∧ (open_write h (LibraryCheck.sFilePath h (self r)) (LibraryCheck.sCode (self r)) = None →
     fst (LibraryCheck.compileAndExecute h r) = Ok tt
     ∧ g_cErrors r < g_cErrors (snd (LibraryCheck.compileAndExecute h r))).
Proof.
  intros Hhave Hver Hfail.
  unfold LibraryCheck.compileAndExecute, bind, get_self, try_finally, try_except,
    LibraryCheck.write_file, run, log_call, LibraryCheck.remove, printError, update_self,
    raise, ret.
  cbn -[LibraryCheck.asCmd LibraryCheck.sBinPath LibraryCheck.sFilePath].
  destruct (open_write h (LibraryCheck.sFilePath h (self r)) (LibraryCheck.sCode (self r)))
    as [msg|] eqn:Hw.
  { cbn. repeat split; try done. }
  destruct Hfail as [rc out err Hc Hrc | msg Hc | out err rc out' err' Hc He Hrc
                     | out err msg Hc He]; rewrite Hc;
    cbn -[LibraryCheck.asCmd LibraryCheck.sBinPath LibraryCheck.sFilePath].
  - apply Z.eqb_neq in Hrc. rewrite Hrc. cbn. repeat split; try done; lia.
  - repeat split; try done; lia.
  - rewrite He. cbn -[LibraryCheck.asCmd LibraryCheck.sBinPath LibraryCheck.sFilePath].
    apply Z.eqb_neq in Hrc. rewrite Hrc.
    destruct (g_fDebug h); cbn -[LibraryCheck.asCmd LibraryCheck.sBinPath LibraryCheck.sFilePath];
      [repeat split; try done; lia|].
    destruct (os_remove h (LibraryCheck.sBinPath h)); cbn; repeat split; try done; lia.
  - rewrite He. cbn -[LibraryCheck.asCmd LibraryCheck.sBinPath LibraryCheck.sFilePath].
    destruct (g_fDebug h); cbn -[LibraryCheck.asCmd LibraryCheck.sBinPath LibraryCheck.sFilePath];
      [repeat split; try done; lia|].
    destruct (os_remove h (LibraryCheck.sBinPath h)); cbn; repeat split; try done; lia.
Qed.

Lemma compileAndExecute_failure_keeps_found_witness :
  let r := start Examples.zlib_found in
  let r' := snd (LibraryCheck.compileAndExecute
                   (Examples.linux_broken_compiler Examples.tree_full) r) in
  LibraryCheck.fHave (self r') = Some true ∧ LibraryCheck.sVer (self r') = None.
Proof.
  intros r r'.
  destruct (compileAndExecute_failure_keeps_found
              (Examples.linux_broken_compiler Examples.tree_full) r eq_refl eq_refl)
    as (Hhave & Hver & _).
  - apply (CompileFailed _ _ 1%Z EmptyString "error"); [reflexivity | discriminate].
  - split; [exact Hhave | exact Hver].
Defined.

(** ** Search paths *)

(** On Linux and Solaris the library search list is the fixed system list,
    filtered for existence: neither the custom root nor the source tree's
    [src/libs] is in it. *)
Lemma getLibSearchPaths_linux_solaris (h : Host) (r : Run LibraryCheck.t) (g : string) :
  g_enmBuildTarget h = BuildTargets.LINUX ∨ g_enmBuildTarget h = BuildTargets.SOLARIS →
  LibraryCheck.getLinuxGnuTypeFromPlatform h = Some g →
  LibraryCheck.getLibSearchPaths h r
    = filterM (exists_ h)
        [ "/usr/lib"; "/usr/local/lib"; "/usr/lib/" +:+ g; "/opt/local/lib/" +:+ g;
          "/usr/lib64"; "/lib"; "/lib64"; "/opt/lib"; "/opt/local/lib" ] r.
Proof.
  intros Ht Hg. unfold LibraryCheck.getLibSearchPaths, bind at 1, get_self.
  rewrite Hg. destruct Ht as [Ht | Ht]; rewrite Ht; simpl; by destruct r.
Qed.

(** C3, at the input where the code departs from it.  Linux, x86_64, custom
    root [/opt/zlib]; the directories [/opt/zlib/include], [/opt/zlib/lib] and
    the source tree's [src/libs] all exist.  The include list starts with the
    custom root and the source-tree root; the library list holds neither. *)
Theorem getLibSearchPaths_linux_drops_custom_root :
  fst (LibraryCheck.getIncSearchPaths (Examples.linux Examples.tree_full)
         (start Examples.zlib_custom))
    = Ok [ "/opt/zlib/include"; "/src/src/libs"; "/usr/include" ]
  ∧ fst (LibraryCheck.getLibSearchPaths (Examples.linux Examples.tree_full)
           (start Examples.zlib_custom))
    = Ok [ "/usr/lib" ]
  ∧ os_path_exists (Examples.linux Examples.tree_full) "/opt/zlib/lib" = true
  ∧ os_path_exists (Examples.linux Examples.tree_full) "/src/src/libs" = true.
Proof. vm_compute. done. Qed.

(** ** Library lookup *)

(** C4, at the input where the code departs from it.  Linux; the only entry
    of [/usr/lib] is [bogus.so].  The pattern handed to [glob] is the text of
    the whole list, [['libz']*.so], whose bracket is a character set; it
    matches [bogus.so], and [/usr/lib] becomes the library root of zlib. *)
Theorem checkLib_accepts_unrelated_file :
  let h := Examples.linux Examples.tree_bogus in
  Posix.listdir Examples.tree_bogus "/usr/lib" = [ "bogus.so" ]
  ∧ PyStr.startswith "bogus.so" "libz" = false
  ∧ LibraryCheck.checkLib_pattern h Examples.zlib "/usr/lib" ".so" = "/usr/lib/['libz']*.so"
  ∧ fst (LibraryCheck.checkLib h (start Examples.zlib)) = Ok true
  ∧ LibraryCheck.sLibPath (self (snd (LibraryCheck.checkLib h (start Examples.zlib))))
      = Some "/usr/lib"
  ∧ LibraryCheck.fHave (self (snd (LibraryCheck.performCheck h (start Examples.zlib))))
      = Some true.
Proof. vm_compute. done. Qed.

(** ** EnvManager.transform *)











(** ** Computations that leave the object alone *)

Lemma pure_effect_ret {Obj A} (a : A) : pure_effect (@ret Obj A a).
Proof. exists (Ok a), 0, [], [], []. by intros []. Qed.

Lemma pure_effect_raise {Obj A} (e : Exn) : pure_effect (@raise Obj A e).
Proof. exists (Raise e), 0, [], [], []. by intros []. Qed.

Lemma pure_effect_log_call {Obj} (c : HostCall) : pure_effect (@log_call Obj c).
Proof. exists (Ok tt), 0, [], [], [ c ]. by intros []. Qed.

Lemma pure_effect_printError {Obj} (s : string) : pure_effect (@printError Obj s).
Proof. exists (Ok tt), 1, [ "*** Error: " +:+ s ], [], []. by intros []. Qed.

Lemma pure_effect_print {Obj} (s : string) : pure_effect (@print Obj s).
Proof. exists (Ok tt), 0, [], [ s ], []. by intros []. Qed.

Lemma extend_extend {Obj} (r : Run Obj) n errs outs cs n' errs' outs' cs' :
  extend (extend r n errs outs cs) n' errs' outs' cs'
    = extend r (n' + n) (errs' ++ errs) (outs' ++ outs) (cs' ++ cs).
Proof.
  unfold extend; simpl. by rewrite Nat.add_assoc, <- !(assoc_L (++)).
Qed.

Lemma pure_effect_bind {Obj A B} (m : M Obj A) (k : A → M Obj B) :
  pure_effect m → (∀ a, pure_effect (k a)) → pure_effect (bind m k).
Proof.
  intros (res & n & errs & outs & cs & Hm) Hk. destruct res as [a|e].
  - destruct (Hk a) as (res' & n' & errs' & outs' & cs' & Hka).
    exists res', (n' + n), (errs' ++ errs), (outs' ++ outs), (cs' ++ cs).
    intros r. unfold bind. by rewrite Hm, Hka, extend_extend.
  - exists (Raise e), n, errs, outs, cs. intros r. unfold bind. by rewrite Hm.
Qed.

Lemma pure_effect_try_except {Obj A} (m : M Obj A) (handles : Exn → bool) (k : Exn → M Obj A) :
  pure_effect m → (∀ e, pure_effect (k e)) → pure_effect (try_except m handles k).
Proof.
  intros (res & n & errs & outs & cs & Hm) Hk. destruct res as [a|e].
  - exists (Ok a), n, errs, outs, cs. intros r. unfold try_except. by rewrite Hm.
  - destruct (handles e) eqn:Hh.
    + destruct (Hk e) as (res' & n' & errs' & outs' & cs' & Hke).
      exists res', (n' + n), (errs' ++ errs), (outs' ++ outs), (cs' ++ cs).
      intros r. unfold try_except. by rewrite Hm, Hh, Hke, extend_extend.
    + exists (Raise e), n, errs, outs, cs. intros r. unfold try_except. by rewrite Hm, Hh.
Qed.

Lemma pure_effect_self {Obj A} (m : M Obj A) (r : Run Obj) :
  pure_effect m → self (snd (m r)) = self r.
Proof. intros (res & n & errs & outs & cs & Hm). by rewrite Hm. Qed.


Lemma pure_effect_fst {Obj A} (m : M Obj A) (r r0 : Run Obj) :
  pure_effect m → fst (m r) = fst (m r0).
Proof. intros (res & n & errs & outs & cs & Hm). by rewrite !Hm. Qed.

Create HintDb pure_effect.
#[local] Hint Resolve pure_effect_ret pure_effect_raise pure_effect_log_call
  pure_effect_printError pure_effect_print : pure_effect.

Ltac pure_effect_step :=
  first [ apply pure_effect_bind; [|intros ?]
        | apply pure_effect_try_except; [|intros ?]
        | solve [ auto with pure_effect ] ].

Section HostCallsArePure.

Context {Obj : Type} (h : Host).

Lemma pure_effect_printVerbose (n : nat) (s : string) : pure_effect (@printVerbose h Obj n s).
Proof. unfold printVerbose. destruct (n <=? g_cVerbosity h)%nat; auto with pure_effect. Qed.

Lemma pure_effect_isfile (p : string) : pure_effect (@isfile h Obj p).
Proof. unfold isfile. repeat pure_effect_step. Qed.


Lemma pure_effect_exists_ (p : string) : pure_effect (@exists_ h Obj p).
Proof. unfold exists_. repeat pure_effect_step. Qed.

Lemma pure_effect_glob (p : string) : pure_effect (@glob h Obj p).
Proof. unfold glob. repeat pure_effect_step. Qed.

Lemma pure_effect_access_X_OK (p : string) : pure_effect (@access_X_OK h Obj p).
Proof. unfold access_X_OK. repeat pure_effect_step. Qed.

Lemma pure_effect_which (name : string) : pure_effect (@which h Obj name).
Proof. unfold which. repeat pure_effect_step. Qed.

Lemma pure_effect_run (cmd : list string) : pure_effect (@run h Obj cmd).
Proof.
  unfold run. pure_effect_step; [auto with pure_effect|].
  destruct (subprocess_run h cmd); auto with pure_effect.
Qed.

Lemma pure_effect_checkWhich_switches (p : string) (l : list string) :
  pure_effect (@checkWhich_switches h Obj p l).
Proof.
  induction l as [|sw l IH]; simpl; [auto with pure_effect|].
  apply pure_effect_bind; [apply pure_effect_run|].
  intros [[rc out] err]. destruct (rc =? 0)%Z; [|exact IH].
  destruct (PyStr.first_line (PyStr.strip out)); auto with pure_effect.
Qed.

Lemma pure_effect_checkWhich_version (sCmdName sToolDesc : string) (p : option string) :
  pure_effect (@checkWhich_version h Obj sCmdName sToolDesc p).
Proof.
  unfold checkWhich_version. destruct p as [p|]; [destruct (PyStr.truthy p)|].
  - apply pure_effect_try_except; [apply pure_effect_checkWhich_switches|].
    intros e. repeat pure_effect_step.
  - repeat pure_effect_step.
  - repeat pure_effect_step.
Qed.

Lemma pure_effect_checkWhich (sCmdName sToolDesc : string) (sCustom : option string) :
  pure_effect (@checkWhich h Obj sCmdName sToolDesc sCustom).
Proof.
  assert (pure_effect
            (bind (@which h Obj sCmdName)
               (fun sCmdPath =>
                  bind (if PyStr.truthy_opt sCmdPath
                        then printVerbose h 1 ("Found '" +:+ sCmdName +:+ "' at: " +:+
                                               PyStr.fmt_opt sCmdPath)
                        else ret tt)
                    (fun _ => checkWhich_version h sCmdName sToolDesc sCmdPath)))) as Hpath.
  { apply pure_effect_bind; [apply pure_effect_which|]. intros o.
    apply pure_effect_bind; [|intros; apply pure_effect_checkWhich_version].
    destruct (PyStr.truthy_opt o); [apply pure_effect_printVerbose | auto with pure_effect]. }
  unfold checkWhich. destruct sCustom as [c|]; [|exact Hpath].
  destruct (PyStr.truthy c); [|exact Hpath].
  apply pure_effect_bind; [apply pure_effect_isfile|]. intros fFile.
  apply pure_effect_bind.
  { destruct fFile; [apply pure_effect_access_X_OK | auto with pure_effect]. }
  intros fOk. destruct fOk.
  - apply pure_effect_bind; [apply pure_effect_printVerbose|].
    intros; apply pure_effect_checkWhich_version.
  - repeat pure_effect_step.
Qed.

End HostCallsArePure.

(** ** Inversion of the monad's bind *)

Lemma bind_Ok_inv {Obj A B} (m : M Obj A) (k : A → M Obj B) (r r' : Run Obj) (b : B) :
  bind m k r = (Ok b, r') → ∃ a r1, m r = (Ok a, r1) ∧ k a r1 = (Ok b, r').
Proof.
  unfold bind. destruct (m r) as [[a|e] r1]; [eauto | discriminate].
Qed.

Lemma bind_Ok {Obj A B} (m : M Obj A) (k : A → M Obj B) (r r1 : Run Obj) (a : A) :
  m r = (Ok a, r1) → bind m k r = k a r1.
Proof. unfold bind. by intros ->. Qed.


Lemma bind_Raise {Obj A B} (m : M Obj A) (k : A → M Obj B) (r r1 : Run Obj) (e : Exn) :
  m r = (Raise e, r1) → bind m k r = (Raise e, r1).
Proof. unfold bind. by intros ->. Qed.

(** ** What checkWhich returns *)

Section CheckWhichResults.

Context {Obj : Type} (h : Host).

Lemma checkWhich_switches_result (p : string) (l : list string) (r r' : Run Obj) a b :
  checkWhich_switches h p l r = (Ok (a, b), r') → a = Some p ∧ is_Some b.
Proof.
  revert r. induction l as [|sw l IH]; intros r; simpl.
  - unfold ret. intros [= <- <- _]. eauto.
  - unfold bind, run, log_call, ret, raise.
    destruct (subprocess_run h [p; sw]) as [rc out err|msg|msg]; simpl; try discriminate.
    destruct (rc =? 0)%Z; [|apply IH].
    destruct (PyStr.first_line (PyStr.strip out)); simpl; [|discriminate].
    intros [= <- <- _]. eauto.
Qed.

Lemma checkWhich_version_result (n d : string) (o : option string) (r r' : Run Obj) a b :
  checkWhich_version h n d o r = (Ok (a, b), r') → checkWhich_shape a b.
Proof.
  unfold checkWhich_version.
  destruct o as [p|]; [destruct (PyStr.truthy p) eqn:Ht|];
    unfold try_except, bind, printError, ret;
    [| intros [= <- <- _]; by left ..].
  destruct (checkWhich_switches h p asSwitches r) as [[[a' b']|e] r1] eqn:Hs.
  - intros [= <- <- _]. apply checkWhich_switches_result in Hs as [-> Hb].
    right. eauto.
  - destruct (is_SubprocessError e); [intros [= <- <- _]; by left | discriminate].
Qed.

Lemma checkWhich_result (n d : string) (c : option string) (r r' : Run Obj) a b :
  checkWhich h n d c r = (Ok (a, b), r') → checkWhich_shape a b.
Proof.
  assert (∀ r,
            bind (@which h Obj n)
              (fun sCmdPath =>
                 bind (if PyStr.truthy_opt sCmdPath
                       then printVerbose h 1 ("Found '" +:+ n +:+ "' at: " +:+
                                              PyStr.fmt_opt sCmdPath)
                       else ret tt)
                   (fun _ => checkWhich_version h n d sCmdPath)) r = (Ok (a, b), r') →
            checkWhich_shape a b) as Hpath.
  { intros r0 H. apply bind_Ok_inv in H as (o & r1 & _ & H).
    apply bind_Ok_inv in H as (? & r2 & _ & H).
    by apply checkWhich_version_result in H. }
  unfold checkWhich. destruct c as [c|]; [|apply Hpath].
  destruct (PyStr.truthy c); [|apply Hpath].
  intros H. apply bind_Ok_inv in H as (fFile & r1 & _ & H).
  apply bind_Ok_inv in H as (fOk & r2 & _ & H). destruct fOk.
  - apply bind_Ok_inv in H as (? & r3 & _ & H). by apply checkWhich_version_result in H.
  - apply bind_Ok_inv in H as (? & r3 & _ & H). unfold ret in H.
    injection H as <- <- _. by left.
Qed.

End CheckWhichResults.

(** ** The loops of ToolCheck *)

Section ToolLoops.

Context (h : Host).

Lemma assign_checkWhich_spec (c d : string) (cu : option string) (r : Run ToolCheck.t) :
  (∃ p v r', ToolCheck.assign_checkWhich h c d cu r = (Ok tt, r')
      ∧ fst (checkWhich h c d cu r) = Ok (p, v)
      ∧ checkWhich_shape p v
      ∧ self r' = ToolCheck.set_sVer v (ToolCheck.set_sCmdPath p (self r)))
  ∨ (∃ e r', ToolCheck.assign_checkWhich h c d cu r = (Raise e, r') ∧ self r' = self r).
Proof.
  unfold ToolCheck.assign_checkWhich.
  pose proof (pure_effect_self _ r (pure_effect_checkWhich h c d cu)) as Hself.
  destruct (checkWhich h c d cu r) as [[[p v]|e] r1] eqn:Hc; simpl in Hself.
  - left. exists p, v. eexists. rewrite (bind_Ok _ _ _ _ _ Hc).
    split; [reflexivity|]. split; [done|]. split; [by eapply checkWhich_result|].
    simpl. by rewrite Hself.
  - right. exists e, r1. by rewrite (bind_Raise _ _ _ _ _ Hc).
Qed.


(** When every candidate resolves the loop runs to its end and, if there
    was a candidate at all, the probe is Found. *)
Lemma performCheck_loop_all_resolve (o : ToolCheck.t) (l : list string) (r : Run ToolCheck.t) :
  ToolCheck.sName (self r) = ToolCheck.sName o →
  ToolCheck.sCustomPath (self r) = ToolCheck.sCustomPath o →
  Forall (resolves h o) l →
  ∃ r', ToolCheck.performCheck_loop h l r = (Ok true, r')
        ∧ (l ≠ [] → ToolCheck.fHave (self r') = Some true).
Proof.
  revert r. induction l as [|c l IH]; intros r Hn Hc Hall.
  - exists r. by split.
  - inversion Hall as [|? ? (p & v & Hres) Hall']; subst.
    simpl. unfold bind at 1, get_self at 1. rewrite Hn, Hc.
    rewrite (pure_effect_fst _ (start o) r (pure_effect_checkWhich h c _ _)) in Hres.
    destruct (assign_checkWhich_spec c (ToolCheck.sName o) (ToolCheck.sCustomPath o) r)
      as [(p0 & v0 & r1 & Hrun & Hfst & Hshape & Hself) | (e & r1 & Hrun & Hself)].
    + rewrite Hres in Hfst. injection Hfst as <- <-.
      destruct Hshape as [[? ?] | (p' & [= <-] & Ht & Hv)]; [discriminate|].
      rewrite (bind_Ok _ _ _ _ _ Hrun). unfold bind at 1, get_self at 1.
      rewrite Hself. simpl. rewrite Ht. unfold bind at 1, update_self at 1.
      destruct (IH (MkRun (ToolCheck.set_fHave (Some true) (self r1)) (g_cErrors r1)
                      (err_lines r1) (out_lines r1) (calls r1)))
        as (r' & Hloop & Hhave); [by rewrite Hself | by rewrite Hself | done |].
      exists r'. split; [done|]. intros _.
      destruct l as [|c' l]; [|by apply Hhave].
      simpl in Hloop. unfold ret in Hloop. by injection Hloop as <-.
    + exfalso. unfold ToolCheck.assign_checkWhich, bind in Hrun.
      destruct (checkWhich h c (ToolCheck.sName o) (ToolCheck.sCustomPath o) r)
        as [[[p1 v1]|e1] r2]; simpl in Hres; [|discriminate].
      unfold update_self in Hrun. simpl in Hrun. discriminate.
Qed.





End ToolLoops.

(** ** The loops of LibraryCheck *)

Section LibraryLoops.

Context (h : Host).

















End LibraryLoops.

(** ** What a finished probe records *)

Section RecordedPaths.

Context (h : Host).





End RecordedPaths.




(** ** Tool probes: which candidates must resolve *)



(** *** checkWhich: the lookup and the version query *)

Section CheckWhichQueries.

Context {Obj : Type} (h : Host).







End CheckWhichQueries.

Section CheckWhichOutcomes.

Context {Obj : Type} (h : Host).



End CheckWhichOutcomes.

Section CheckWhichVerdict.

Context {Obj : Type} (h : Host).









End CheckWhichVerdict.

(** *** The loop of performCheck *)

Section ToolLoop.

Context (h : Host).








End ToolLoop.


